(** * A shallow embedding of [COSRedirector] (src/index.js)

    The module spawns a child process and streams its standard output,
    optionally through gzip, into the managed multipart upload of an
    S3-compatible client.  We model the JavaScript heap of plain objects,
    the streams and pipes, the child processes and their listeners, the
    requests handed to [s3Conn.upload], the signals the redirector emits,
    and the npm [extend] helper used to build the upload parameters. *)

From Stdlib Require Import ZArith String List.
From stdpp Require Import base gmap strings list.
Import ListNotations.
Open Scope string_scope.
Open Scope list_scope.

(** ** JavaScript values *)

(** Streams are opaque handles: the stdout of a spawned child, a gzip
    transform made by [createGzip], or a stream supplied by a caller. *)
Inductive stream :=
| SStdout (pid : nat)
| SGzip (g : nat)
| SOther (id : nat).

Inductive value :=
| VUndef
| VNull
| VBool (b : bool)
| VNum (z : Z)
| VStr (s : string)
| VObj (l : nat)          (** reference to a plain object on the heap *)
| VStream (s : stream).   (** reference to a stream object *)

#[global] Instance stream_eq_dec : EqDecision stream.
Proof. solve_decision. Defined.
#[global] Instance value_eq_dec : EqDecision value.
Proof. solve_decision. Defined.

(** JavaScript truthiness (numbers are integers here, so no NaN). *)
Definition truthy (v : value) : bool :=
  match v with
  | VUndef | VNull => false
  | VBool b => b
  | VNum z => negb (Z.eqb z 0)
  | VStr s => negb (String.eqb s "")
  | VObj _ | VStream _ => true
  end.

(** [v != null]: loose inequality with null, false for null and undefined. *)
Definition loose_neq_null (v : value) : bool :=
  match v with
  | VUndef | VNull => false
  | _ => true
  end.

(** An argument that may be omitted at the call site; a default parameter
    [x = d] applies when the argument is omitted or [undefined]. *)
Definition default_param (a : option value) (d : value) : value :=
  match a with
  | None | Some VUndef => d
  | Some v => v
  end.

(** ** The world the code runs in *)

Inductive proc_status := Running | Exited (code : value).

(** The two closures the redirector registers on its child process. *)
Inductive handler := HForwardExit | HForwardError.

(** Calls the code makes into its collaborators, in program order. *)
Inductive action :=
| ASpawn (pid : nat) (command : string) (args : list string)
| AListen (pid : nat) (event : string)
| ACreateGzip (g : nat)
| APipe (src dst : stream)
| AUpload (params options : value).

Record state := mkState {
  heap : gmap nat (gmap string value);
  next_pid : nat;
  next_gzip : nat;
  procs : gmap nat proc_status;
  listeners : list (nat * string * handler);
  pipes : list (stream * stream);
  uploads : list (value * value);       (** pending [s3Conn.upload] requests *)
  emitted : list (string * value);      (** signals emitted by the redirector *)
  trace : list action
}.

(** ** A state monad *)

Definition M (A : Type) := state -> A * state.

#[global] Instance M_ret : MRet M := fun A x s => (x, s).
#[global] Instance M_bind : MBind M :=
  fun A B f m s => let '(x, s') := m s in f x s'.

Definition modify (f : state -> state) : M unit := fun s => (tt, f s).

(** [self.emit(name, payload)] *)
Definition emit (name : string) (payload : value) : M unit :=
  modify (fun s => mkState (heap s) (next_pid s) (next_gzip s)
    (procs s) (listeners s) (pipes s) (uploads s) (emitted s ++ [(name, payload)])
    (trace s)).

(** ** Plain objects and the [extend] helper *)

Definition set_heap (h : gmap nat (gmap string value)) (s : state) : state :=
  mkState h (next_pid s) (next_gzip s) (procs s) (listeners s) (pipes s)
    (uploads s) (emitted s) (trace s).

(** [{}]: a fresh empty object, at a location not yet in use. *)
Definition alloc_obj : M nat := fun s =>
  let l := fresh (dom (heap s)) in (l, set_heap (<[l := ∅]> (heap s)) s).

(** [obj[k] = v] on the object at [l]. *)
Definition set_prop (l : nat) (k : string) (v : value) : M unit :=
  modify (fun s => set_heap (<[l := <[k := v]> (default ∅ (heap s !! l))]> (heap s)) s).

(** The copy loop of [extend] for one source object, given as its own
    properties in enumeration order:
    [if (target !== copy) { ... else if (typeof copy !== 'undefined')
    target[name] = copy }]. *)
Fixpoint extend_copy (t : nat) (src : list (string * value)) : M unit :=
  match src with
  | [] => mret tt
  | (k, v) :: rest =>
      _ ← (if decide (VObj t = v) then mret tt
           else if decide (v = VUndef) then mret tt
           else set_prop t k v);
      extend_copy t rest
  end.

(** [extend(false, target, src)] (npm package [extend]): with [deep] a
    boolean, the target is [arguments[1] || {}], replaced by [{}] when it
    is not an object; the source's properties are then written INTO the
    target, which is returned.  Domain of the model: the targets are plain
    objects or primitives (undefined, null, booleans, numbers, strings).
    A stream passed as [bucket_options] or [transfer_options] is outside
    it: npm [extend] would write into that stream object (and skip a
    property whose value is the stream itself), whereas here it is
    treated like a primitive.  Such an argument is outside the caller
    contract, which requires [Bucket] and [Key]. *)
Definition extend_false (target : value) (src : list (string * value)) : M value :=
  t ← (match target with VObj l => mret l | _ => alloc_obj end);
  _ ← extend_copy t src;
  mret (VObj t).

(** ** Collaborators *)

(** [createGzip()] *)
Definition createGzip : M nat := fun s =>
  (next_gzip s, mkState (heap s) (next_pid s) (S (next_gzip s))
    (procs s) (listeners s) (pipes s) (uploads s) (emitted s)
    (trace s ++ [ACreateGzip (next_gzip s)])).

(** [src.pipe(dst)]: connects the streams and returns [dst]. *)
Definition pipe (src dst : stream) : M value := fun s =>
  (VStream dst, mkState (heap s) (next_pid s) (next_gzip s)
    (procs s) (listeners s) (pipes s ++ [(src, dst)]) (uploads s) (emitted s)
    (trace s ++ [APipe src dst])).

(** [spawn(command, args)]: starts a child, running, and returns its id;
    the child's stdout is [SStdout pid]. *)
Definition spawn (command : string) (args : list string) : M nat := fun s =>
  (next_pid s, mkState (heap s) (S (next_pid s)) (next_gzip s)
    (<[next_pid s := Running]> (procs s)) (listeners s) (pipes s) (uploads s)
    (emitted s) (trace s ++ [ASpawn (next_pid s) command args])).

(** [child_process.on(event, h)] *)
Definition on (pid : nat) (event : string) (h : handler) : M unit := fun s =>
  (tt, mkState (heap s) (next_pid s) (next_gzip s) (procs s)
    (listeners s ++ [(pid, event, h)]) (pipes s) (uploads s) (emitted s)
    (trace s ++ [AListen pid event])).

(** [this.s3Conn.upload(params, options, callback)]: the client records
    the request and later runs [upload_callback] (below) once it settles. *)
Definition s3_upload (params options : value) : M unit := fun s =>
  (tt, mkState (heap s) (next_pid s) (next_gzip s) (procs s)
    (listeners s) (pipes s) (uploads s ++ [(params, options)]) (emitted s)
    (trace s ++ [AUpload params options])).

(** ** The redirector *)

(** The completion callback passed to [s3Conn.upload]:
    [if(err!=null) self.emit('upload_error', err)
     else self.emit('upload_finish', data)]. *)
Definition upload_callback (err data : value) : M unit :=
  if loose_neq_null err then emit "upload_error" err
  else emit "upload_finish" data.

Definition ten_MiB : Z := 10 * 1024 * 1024.

(** [uploadStreamToCOS(stream, bucket_options, transfer_options,
    compressed=false)] *)
Definition uploadStreamToCOS (strm : stream) (bucket_options transfer_options : value)
    (compressed_arg : option value) : M unit :=
  let compressed := default_param compressed_arg (VBool false) in
  gzip ← (if truthy compressed then g ← createGzip; mret (Some g) else mret None);
  readStream ← (if truthy compressed
                then match gzip with
                     | Some g => pipe strm (SGzip g)
                     | None => mret (VStream strm)   (* unreachable *)
                     end
                else mret (VStream strm));
  params ← extend_false bucket_options [("Body", readStream)];
  options ← extend_false transfer_options
              [("partSize", VNum ten_MiB); ("queueSize", VNum 10)];
  s3_upload params options.

(** [execCommandAndSendToCOS(command, args, bucket_options,
    transfer_options, compressed=false)].  The [async] body contains no
    [await]: it runs to completion synchronously. *)
Definition execCommandAndSendToCOS (command : string) (args : list string)
    (bucket_options transfer_options : value) (compressed_arg : option value) : M unit :=
  let compressed := default_param compressed_arg (VBool false) in
  child_process ← spawn command args;
  _ ← on child_process "exit" HForwardExit;
  _ ← on child_process "error" HForwardError;
  uploadStreamToCOS (SStdout child_process) bucket_options transfer_options
    (Some compressed).

(** ** Events delivered later by the event loop *)

(** What the child process handle emits: ['exit'] with its code (a number,
    or null when killed by a signal) or ['error'] with an error object. *)
Inductive child_event := CExit (code : value) | CError (err : value).

Definition event_name (e : child_event) : string :=
  match e with CExit _ => "exit" | CError _ => "error" end.

(** The bodies of the two arrow functions registered in
    [execCommandAndSendToCOS]. *)
Definition run_handler (h : handler) (e : child_event) : M unit :=
  match h, e with
  | HForwardExit, CExit code => emit "command_exit" code
  | HForwardError, CError err => emit "command_init_error" err
  | _, _ => mret tt
  end.

Fixpoint run_listeners (ls : list (nat * string * handler)) (pid : nat)
    (e : child_event) : M unit :=
  match ls with
  | [] => mret tt
  | (p, name, h) :: rest =>
      _ ← (if decide (p = pid) then
             if String.eqb name (event_name e) then run_handler h e else mret tt
           else mret tt);
      run_listeners rest pid e
  end.

(** The child [pid] emits [e]: an exit marks it terminated, then the
    listeners registered for that event run in registration order. *)
Definition deliver_child (pid : nat) (e : child_event) : M unit := fun s =>
  let s1 := match e with
            | CExit code =>
                mkState (heap s) (next_pid s) (next_gzip s)
                  (<[pid := Exited code]> (procs s)) (listeners s) (pipes s)
                  (uploads s) (emitted s) (trace s)
            | CError _ => s
            end in
  run_listeners (listeners s1) pid e s1.

Fixpoint deliver_all (pid : nat) (es : list child_event) : M unit :=
  match es with
  | [] => mret tt
  | e :: rest => _ ← deliver_child pid e; deliver_all pid rest
  end.



(** The state of a freshly constructed redirector. *)
Definition init : state := mkState ∅ 0 0 ∅ [] [] [] [] [].

(** Builds the object literal [{k1: v1, ...}] at a fresh location. *)
Definition new_obj (props : list (string * value)) : M value :=
  l ← alloc_obj;
  _ ← extend_copy l props;
  mret (VObj l).

(** ** Properties of the embedding *)

Definition copy_props (o : gmap string value) (src : list (string * value)) :=
  foldl (fun acc kv => <[kv.1 := kv.2]> acc) o src.

(** A source value [extend] always copies: neither undefined nor an
    object that could be the target itself. *)
Definition copied (v : value) : Prop := (forall l, v <> VObj l) /\ v <> VUndef.

Lemma set_heap_set_heap h1 h2 s : set_heap h2 (set_heap h1 s) = set_heap h2 s.
Proof. reflexivity. Qed.

Lemma heap_set_heap h s : heap (set_heap h s) = h.
Proof. reflexivity. Qed.

Lemma extend_copy_spec t src s :
  Forall (fun kv => copied kv.2) src -> src <> [] ->
  extend_copy t src s =
    (tt, set_heap (<[t := copy_props (default ∅ (heap s !! t)) src]> (heap s)) s).
Proof.
  revert s. induction src as [|[k v] rest IH]; intros s Hall Hne; [congruence|].
  inversion Hall as [|? ? [Hobj Hund] Hrest]; subst.
  cbn [extend_copy mbind M_bind].
  destruct (decide (VObj t = v)) as [E|_]; [exfalso; by eapply Hobj|].
  destruct (decide (v = VUndef)) as [E|_]; [done|].
  unfold set_prop, modify, mbind, M_bind. cbv beta iota zeta.
  destruct rest as [|kv rest].
  - reflexivity.
  - rewrite IH by done. rewrite set_heap_set_heap, heap_set_heap.
    rewrite lookup_insert_eq, insert_insert_eq. reflexivity.
Qed.

Lemma extend_false_fresh target src s :
  Forall (fun kv => copied kv.2) src -> src <> [] ->
  (forall l', target <> VObj l') ->
  extend_false target src s =
    (VObj (fresh (dom (heap s))),
     set_heap (<[fresh (dom (heap s)) := copy_props ∅ src]> (heap s)) s).
Proof.
  intros Hall Hne Hobj.
  assert (E : extend_false target src s =
            (_ ← extend_copy (fresh (dom (heap s))) src;
             mret (VObj (fresh (dom (heap s)))))
              (set_heap (<[fresh (dom (heap s)) := ∅]> (heap s)) s)).
  { destruct target; try reflexivity. exfalso. by eapply Hobj. }
  rewrite E. unfold mbind, M_bind. rewrite extend_copy_spec by done.
  rewrite set_heap_set_heap, heap_set_heap, lookup_insert_eq, insert_insert_eq.
  reflexivity.
Qed.

Lemma extend_false_obj l src s :
  Forall (fun kv => copied kv.2) src -> src <> [] ->
  extend_false (VObj l) src s =
    (VObj l, set_heap (<[l := copy_props (default ∅ (heap s !! l)) src]> (heap s)) s).
Proof.
  intros Hall Hne. unfold extend_false, mbind, M_bind, mret, M_ret.
  rewrite extend_copy_spec by done. reflexivity.
Qed.

Lemma fresh_not_in_heap s : heap s !! fresh (dom (heap s)) = None.
Proof. apply not_elem_of_dom, is_fresh. Qed.

Lemma extend_false_spec target src s :
  Forall (fun kv => copied kv.2) src -> src <> [] ->
  exists l,
    extend_false target src s =
      (VObj l, set_heap (<[l := copy_props (default ∅ (heap s !! l)) src]> (heap s)) s) /\
    (forall l', target = VObj l' -> l = l') /\
    ((forall l', target <> VObj l') -> heap s !! l = None).
Proof.
  intros Hall Hne.
  assert (D : (exists l0, target = VObj l0) \/ ~ (exists l0, target = VObj l0))
    by (destruct target; eauto; right; intros [? ?]; discriminate).
  destruct D as [[l0 ->]|Hn].
  - exists l0. split; [by apply extend_false_obj|split].
    + intros l' E. by injection E.
    + intros H. exfalso. by apply (H l0).
  - assert (Hobj : forall l', target <> VObj l') by (intros l' E; apply Hn; eauto).
    exists (fresh (dom (heap s))). split; [|split].
    + rewrite extend_false_fresh by done. rewrite fresh_not_in_heap. reflexivity.
    + intros l' E. exfalso. by apply (Hobj l').
    + intros _. apply fresh_not_in_heap.
Qed.

Definition transfer_defaults : list (string * value) :=
  [("partSize", VNum ten_MiB); ("queueSize", VNum 10)].

Lemma transfer_defaults_copied : Forall (fun kv => copied kv.2) transfer_defaults.
Proof. repeat constructor; discriminate. Qed.

(** The effect of the end of [uploadStreamToCOS] once [readStream] is
    [rs]: the params object [lp] carries [Body = rs], the options object
    [lo] carries the two transfer fields, and the request is handed to the
    storage client; nothing but the heap, the requests and the trace
    changes. *)
Definition forwarded (rs b t : value) (s s' : state) : Prop :=
  exists lp lo h,
    s' = mkState h (next_pid s) (next_gzip s) (procs s) (listeners s) (pipes s)
           (uploads s ++ [(VObj lp, VObj lo)]) (emitted s)
           (trace s ++ [AUpload (VObj lp) (VObj lo)]) /\
    h !! lp ≫= (.!! "Body") = Some rs /\
    h !! lo ≫= (.!! "partSize") = Some (VNum ten_MiB) /\
    h !! lo ≫= (.!! "queueSize") = Some (VNum 10) /\
    (forall l, b = VObj l -> lp = l) /\
    (forall l, t = VObj l -> lo = l) /\
    ((forall l, t <> VObj l) ->
       h !! lo = Some (<["queueSize" := VNum 10]> (<["partSize" := VNum ten_MiB]> ∅))) /\
    (forall l, l <> lp -> l <> lo -> h !! l = heap s !! l).

Lemma upload_tail_spec b t rs s :
  copied rs ->
  exists s',
    (params ← extend_false b [("Body", rs)];
     options ← extend_false t [("partSize", VNum ten_MiB); ("queueSize", VNum 10)];
     s3_upload params options : M unit) s = (tt, s') /\
    forwarded rs b t s s'.
Proof.
  intros Hrs.
  destruct (extend_false_spec b [("Body", rs)] s) as (lp & E1 & Hb1 & Hb2);
    [by constructor; [|constructor]|done|].
  set (s1 := set_heap (<[lp := copy_props (default ∅ (heap s !! lp)) [("Body", rs)]]>
                         (heap s)) s) in E1.
  destruct (extend_false_spec t transfer_defaults s1) as (lo & E2 & Ht1 & Ht2);
    [apply transfer_defaults_copied|done|].
  set (h := <[lo := copy_props (default ∅ (heap s1 !! lo)) transfer_defaults]> (heap s1)).
  eexists. split.
  { unfold mbind, M_bind. rewrite E1. cbv beta iota zeta.
    unfold transfer_defaults in E2. rewrite E2. reflexivity. }
  exists lp, lo, h.
  split; [|split; [|split; [|split; [|split; [|split; [|split]]]]]].
  - reflexivity.
  - unfold h, s1; cbn [heap set_heap]. unfold copy_props; cbn.
    destruct (decide (lo = lp)) as [->|Hne]; simplify_map_eq; done.
  - unfold h, copy_props; cbn. by simplify_map_eq.
  - unfold h, copy_props; cbn. by simplify_map_eq.
  - exact Hb1.
  - exact Ht1.
  - intros Hn. unfold h. rewrite (Ht2 Hn). unfold copy_props; cbn. by simplify_map_eq.
  - intros l H1 H2. unfold h, s1; cbn [heap set_heap]. by simplify_map_eq.
Qed.

Lemma copied_stream st : copied (VStream st).
Proof. split; [intros l|]; discriminate. Qed.

(** [uploadStreamToCOS] with a falsy [compressed]: no gzip, the raw
    stream is the Body. *)
Lemma upload_raw_spec strm b t c s :
  truthy (default_param c (VBool false)) = false ->
  forwarded (VStream strm) b t s (snd (uploadStreamToCOS strm b t c s)).
Proof.
  intros Hc.
  destruct (upload_tail_spec b t (VStream strm) s (copied_stream strm)) as (s' & E & F).
  unfold uploadStreamToCOS. rewrite Hc.
  unfold mbind at 1 2, M_bind at 1 2, mret, M_ret. cbv beta iota zeta.
  rewrite E. exact F.
Qed.

(** The state right after [createGzip()] and [stream.pipe(gzip)]. *)
Definition after_gzip (strm : stream) (s : state) : state :=
  mkState (heap s) (next_pid s) (S (next_gzip s)) (procs s) (listeners s)
    (pipes s ++ [(strm, SGzip (next_gzip s))]) (uploads s) (emitted s)
    (trace s ++ [ACreateGzip (next_gzip s); APipe strm (SGzip (next_gzip s))]).

(** [uploadStreamToCOS] with a truthy [compressed]: a fresh gzip transform
    is piped from the stream and is the Body. *)
Lemma upload_gzip_spec strm b t c s :
  truthy (default_param c (VBool false)) = true ->
  forwarded (VStream (SGzip (next_gzip s))) b t (after_gzip strm s)
    (snd (uploadStreamToCOS strm b t c s)).
Proof.
  intros Hc.
  destruct (upload_tail_spec b t (VStream (SGzip (next_gzip s))) (after_gzip strm s)
              (copied_stream _)) as (s' & E & F).
  unfold uploadStreamToCOS. rewrite Hc.
  unfold after_gzip in E, F.
  unfold mbind, M_bind in E |- *. unfold mret, M_ret.
  unfold createGzip, pipe. cbv beta iota zeta.
  cbn [heap next_pid next_gzip procs listeners pipes uploads emitted trace].
  rewrite <- app_assoc. cbn [app]. rewrite E. exact F.
Qed.

(** The state right after [spawn] and the two [child_process.on] calls. *)
Definition after_spawn (command : string) (args : list string) (s : state) : state :=
  let pid := next_pid s in
  mkState (heap s) (S pid) (next_gzip s) (<[pid := Running]> (procs s))
    (listeners s ++ [(pid, "exit", HForwardExit); (pid, "error", HForwardError)])
    (pipes s) (uploads s) (emitted s)
    (trace s ++ [ASpawn pid command args; AListen pid "exit"; AListen pid "error"]).

Lemma exec_unfold command args b t c s :
  execCommandAndSendToCOS command args b t c s =
  uploadStreamToCOS (SStdout (next_pid s)) b t (Some (default_param c (VBool false)))
    (after_spawn command args s).
Proof.
  unfold execCommandAndSendToCOS, after_spawn, mbind, M_bind, spawn, on.
  cbv beta iota zeta.
  cbn [heap next_pid next_gzip procs listeners pipes uploads emitted trace].
  rewrite <- !app_assoc. reflexivity.
Qed.

Lemma default_param_idem c :
  default_param (Some (default_param c (VBool false))) (VBool false) =
  default_param c (VBool false).
Proof. destruct c as [[]|]; reflexivity. Qed.

Lemma exec_spec command args b t c s :
  (truthy (default_param c (VBool false)) = false /\
   forwarded (VStream (SStdout (next_pid s))) b t (after_spawn command args s)
     (snd (execCommandAndSendToCOS command args b t c s))) \/
  (truthy (default_param c (VBool false)) = true /\
   forwarded (VStream (SGzip (next_gzip s))) b t
     (after_gzip (SStdout (next_pid s)) (after_spawn command args s))
     (snd (execCommandAndSendToCOS command args b t c s))).
Proof.
  rewrite exec_unfold.
  destruct (truthy (default_param c (VBool false))) eqn:Hc; [right|left]; split; auto.
  - apply (upload_gzip_spec _ _ _ (Some (default_param c (VBool false)))
             (after_spawn command args s)).
    by rewrite default_param_idem.
  - apply upload_raw_spec. by rewrite default_param_idem.
Qed.

(** The signal the redirector emits for a child event it forwards. *)
Definition forward (e : child_event) : string * value :=
  match e with
  | CExit code => ("command_exit", code)
  | CError err => ("command_init_error", err)
  end.

Lemma run_listeners_app l1 l2 pid e s :
  run_listeners (l1 ++ l2) pid e s =
  run_listeners l2 pid e (snd (run_listeners l1 pid e s)).
Proof.
  revert s. induction l1 as [|[[p name] h] rest IH]; intros s; [reflexivity|].
  cbn [app run_listeners]. unfold mbind at 1, M_bind at 1.
  destruct (_ : M unit) as [[] s1] eqn:E at 1.
  rewrite IH. unfold mbind, M_bind. rewrite E. reflexivity.
Qed.

Lemma run_listeners_other ls pid e s :
  (forall p n h, In (p, n, h) ls -> p <> pid) ->
  run_listeners ls pid e s = (tt, s).
Proof.
  revert s. induction ls as [|[[p name] h] rest IH]; intros s Hls; [reflexivity|].
  cbn [run_listeners]. unfold mbind at 1, M_bind at 1.
  destruct (decide (p = pid)) as [E|_].
  - exfalso. eapply Hls; [left; reflexivity|exact E].
  - unfold mret at 1, M_ret at 1. apply IH. intros; eapply Hls; right; eauto.
Qed.

Lemma deliver_child_forward pid e s L :
  listeners s = L ++ [(pid, "exit", HForwardExit); (pid, "error", HForwardError)] ->
  (forall p n h, In (p, n, h) L -> p <> pid) ->
  emitted (snd (deliver_child pid e s)) = emitted s ++ [forward e] /\
  listeners (snd (deliver_child pid e s)) = listeners s.
Proof.
  intros HL Hother.
  assert (Hrun : forall s1, listeners s1 = listeners s ->
            emitted (snd (run_listeners (listeners s1) pid e s1)) = emitted s1 ++ [forward e] /\
            listeners (snd (run_listeners (listeners s1) pid e s1)) = listeners s1).
  { intros s1 E. rewrite E, HL, run_listeners_app, (run_listeners_other L) by exact Hother.
    cbn [snd run_listeners]. unfold mbind, M_bind, mret, M_ret.
    rewrite !decide_True by reflexivity.
    destruct e; cbn; split; [reflexivity| |reflexivity|]; by rewrite E. }
  unfold deliver_child. destruct e;
    match goal with
    | |- context [run_listeners _ _ _ ?x] => destruct (Hrun x eq_refl) as [H1 H2]
    end; (split; [exact H1|exact H2]).
Qed.

Lemma deliver_all_forward pid es s L :
  listeners s = L ++ [(pid, "exit", HForwardExit); (pid, "error", HForwardError)] ->
  (forall p n h, In (p, n, h) L -> p <> pid) ->
  emitted (snd (deliver_all pid es s)) = emitted s ++ map forward es.
Proof.
  revert s. induction es as [|e rest IH]; intros s HL Hother.
  - cbn. by rewrite app_nil_r.
  - cbn [deliver_all]. unfold mbind, M_bind.
    destruct (deliver_child_forward pid e s L HL Hother) as [Hem Hls].
    destruct (deliver_child pid e s) as [[] s1] eqn:E. cbn [snd] in Hem, Hls.
    rewrite (IH s1); [|congruence|exact Hother].
    rewrite Hem, <- app_assoc. reflexivity.
Qed.

(** Listeners registered so far belong to children already spawned. *)
Definition listeners_spawned (s : state) : Prop :=
  forall p n h, In (p, n, h) (listeners s) -> p < next_pid s.

Lemma exec_listeners command args b t c s :
  listeners (snd (execCommandAndSendToCOS command args b t c s)) =
  listeners s ++ [(next_pid s, "exit", HForwardExit); (next_pid s, "error", HForwardError)].
Proof.
  destruct (exec_spec command args b t c s) as [[_ (lp & lo & h & -> & _)]|[_ (lp & lo & h & -> & _)]];
    reflexivity.
Qed.
(** The objects of the README example:
    [bucket_options = {Bucket: 'test-backups', Key: 'pg_dump.bkp.gz'}] and
    [transfer_options = {partSize: 20 * 1024 * 1024, queueSize: 20}]. *)
Definition readme_args : M (value * value) :=
  b ← new_obj [("Bucket", VStr "test-backups"); ("Key", VStr "pg_dump.bkp.gz")];
  t ← new_obj [("partSize", VNum (20 * 1024 * 1024)); ("queueSize", VNum 20)];
  mret (b, t).

(** * The claims *)

(** C1 (code_bug): caller-supplied [partSize]/[queueSize] should win over
    the defaults.  In the code [extend(false, transfer_options, defaults)]
    writes the defaults over the caller's fields: on the README example
    (parts of 20 MiB, 20 concurrent) the client gets 10 MiB and 10. *)
Theorem readme_transfer_options_overridden :
  let '((b, t), s) := readme_args init in
  let s' := snd (execCommandAndSendToCOS "pg_dump" ["-F"; "custom"] b t
                   (Some (VBool true)) s) in
  t = VObj 1 /\
  heap s !! 1 ≫= (.!! "partSize") = Some (VNum 20971520) /\
  heap s !! 1 ≫= (.!! "queueSize") = Some (VNum 20) /\
  uploads s' = [(VObj 0, VObj 1)] /\
  heap s' !! 1 ≫= (.!! "partSize") = Some (VNum 10485760) /\
  heap s' !! 1 ≫= (.!! "queueSize") = Some (VNum 10).
Proof. vm_compute. repeat split. Qed.

(** C2 (code_bug): the caller's objects should be left untouched.  Both
    [extend] calls use the caller's object as the target: after the call
    [bucket_options] holds the [Body] stream and [transfer_options] holds
    [partSize = 10 MiB] and [queueSize = 10], whatever they held before. *)
Theorem upload_writes_into_caller_objects strm lb lt c s :
  let s' := snd (uploadStreamToCOS strm (VObj lb) (VObj lt) c s) in
  (exists rs, heap s' !! lb ≫= (.!! "Body") = Some (VStream rs)) /\
  heap s' !! lt ≫= (.!! "partSize") = Some (VNum ten_MiB) /\
  heap s' !! lt ≫= (.!! "queueSize") = Some (VNum 10).
Proof.
  cbv zeta.
  destruct (truthy (default_param c (VBool false))) eqn:Hc.
  - destruct (upload_gzip_spec strm (VObj lb) (VObj lt) c s Hc)
      as (lp & lo & h & E & HB & HP & HQ & Hb & Ht & _ & _).
    rewrite E; cbn [heap].
    rewrite <- (Hb lb eq_refl), <- (Ht lt eq_refl). eauto.
  - destruct (upload_raw_spec strm (VObj lb) (VObj lt) c s Hc)
      as (lp & lo & h & E & HB & HP & HQ & Hb & Ht & _ & _).
    rewrite E; cbn [heap].
    rewrite <- (Hb lb eq_refl), <- (Ht lt eq_refl). eauto.
Qed.

(** C3: when the storage client's completion callback runs, exactly one
    signal is emitted: [upload_error] iff [err != null], else
    [upload_finish]. *)
Theorem upload_callback_exactly_one err data s :
  exists name payload,
    emitted (snd (upload_callback err data s)) = emitted s ++ [(name, payload)] /\
    (name = "upload_error" <-> loose_neq_null err = true) /\
    (name = "upload_finish" <-> loose_neq_null err = false).
Proof.
  unfold upload_callback.
  destruct (loose_neq_null err); eexists _, _; (split; [reflexivity|]);
    split; split; intros H; try reflexivity; discriminate.
Qed.

(** C4: with [compress = true] the Body handed to the client is a fresh
    gzip transform piped from the source stream; with [compress = false]
    it is the source stream itself and no gzip transform is created. *)
Theorem upload_body_gzip_or_raw strm b t s :
  (let s' := snd (uploadStreamToCOS strm b t (Some (VBool true)) s) in
   exists lp lo,
     uploads s' = uploads s ++ [(VObj lp, lo)] /\
     heap s' !! lp ≫= (.!! "Body") = Some (VStream (SGzip (next_gzip s))) /\
     pipes s' = pipes s ++ [(strm, SGzip (next_gzip s))] /\
     next_gzip s' = S (next_gzip s)) /\
  (let s' := snd (uploadStreamToCOS strm b t (Some (VBool false)) s) in
   exists lp lo,
     uploads s' = uploads s ++ [(VObj lp, lo)] /\
     heap s' !! lp ≫= (.!! "Body") = Some (VStream strm) /\
     pipes s' = pipes s /\
     next_gzip s' = next_gzip s).
Proof.
  split; cbv zeta.
  - destruct (upload_gzip_spec strm b t (Some (VBool true)) s eq_refl)
      as (lp & lo & h & E & HB & _).
    rewrite E. exists lp, (VObj lo). auto.
  - destruct (upload_raw_spec strm b t (Some (VBool false)) s eq_refl)
      as (lp & lo & h & E & HB & _).
    rewrite E. exists lp, (VObj lo). auto.
Qed.
(** C5: [execCommandAndSendToCOS] spawns the child first and, in the
    same synchronous run, hands the child's own stdout handle to the
    upload (as the Body, or as the source of the gzip pipe that is the
    Body); when the request reaches the storage client the child is still
    running and no exit has been signalled. *)
Theorem exec_streams_stdout_while_running command args b t c s :
  let pid := next_pid s in
  let s' := snd (execCommandAndSendToCOS command args b t c s) in
  (exists mid lp lo,
     trace s' = trace s ++ ASpawn pid command args :: mid ++ [AUpload (VObj lp) (VObj lo)] /\
     uploads s' = uploads s ++ [(VObj lp, VObj lo)] /\
     (heap s' !! lp ≫= (.!! "Body") = Some (VStream (SStdout pid)) \/
      exists g, heap s' !! lp ≫= (.!! "Body") = Some (VStream (SGzip g)) /\
                pipes s' = pipes s ++ [(SStdout pid, SGzip g)])) /\
  procs s' !! pid = Some Running /\
  emitted s' = emitted s.
Proof.
  cbv zeta.
  destruct (exec_spec command args b t c s)
    as [[_ (lp & lo & h & -> & HB & _)]|[_ (lp & lo & h & -> & HB & _)]];
    cbn [trace uploads heap pipes procs emitted after_gzip after_spawn];
    (split; [|split; [apply lookup_insert_eq|reflexivity]]).
  - exists [AListen (next_pid s) "exit"; AListen (next_pid s) "error"], lp, lo.
    split; [by rewrite <- !app_assoc|split; [reflexivity|left; exact HB]].
  - exists [AListen (next_pid s) "exit"; AListen (next_pid s) "error";
             ACreateGzip (next_gzip s); APipe (SStdout (next_pid s)) (SGzip (next_gzip s))],
           lp, lo.
    split; [by rewrite <- !app_assoc|split; [reflexivity|right]].
    exists (next_gzip s). split; [exact HB|reflexivity].
Qed.

(** C6: the options handed to the managed upload carry [partSize = 10 MiB]
    and [queueSize = 10]; when the caller supplies no transfer options
    (undefined or null) they are exactly these two fields. *)
Theorem upload_default_transfer_options strm b t c s :
  let s' := snd (uploadStreamToCOS strm b t c s) in
  exists p lo,
    uploads s' = uploads s ++ [(p, VObj lo)] /\
    heap s' !! lo ≫= (.!! "partSize") = Some (VNum (10 * 1024 * 1024)) /\
    heap s' !! lo ≫= (.!! "queueSize") = Some (VNum 10) /\
    ((forall l, t <> VObj l) ->
       heap s' !! lo =
         Some (<["queueSize" := VNum 10]> (<["partSize" := VNum (10 * 1024 * 1024)]> ∅))).
Proof.
  cbv zeta.
  destruct (truthy (default_param c (VBool false))) eqn:Hc;
    [destruct (upload_gzip_spec strm b t c s Hc)
       as (lp & lo & h & -> & _ & HP & HQ & _ & _ & Hfresh & _)
    |destruct (upload_raw_spec strm b t c s Hc)
       as (lp & lo & h & -> & _ & HP & HQ & _ & _ & Hfresh & _)];
    exists (VObj lp), lo; auto.
Qed.

(** C7: the [command_exit] signal carries the child's exit code and the
    [command_init_error] signal carries the child's error object. *)
Theorem exec_exit_and_error_payloads command args b t c s :
  listeners_spawned s ->
  let pid := next_pid s in
  let s1 := snd (execCommandAndSendToCOS command args b t c s) in
  (forall code, emitted (snd (deliver_child pid (CExit code) s1)) =
                emitted s1 ++ [("command_exit", code)]) /\
  (forall err, emitted (snd (deliver_child pid (CError err) s1)) =
               emitted s1 ++ [("command_init_error", err)]).
Proof.
  intros Hsp. cbv zeta.
  assert (Hother : forall p n h, In (p, n, h) (listeners s) -> p <> next_pid s)
    by (intros p n h Hin; specialize (Hsp p n h Hin); lia).
  split; [intros code|intros err];
    refine (proj1 (deliver_child_forward _ _ _ (listeners s) _ Hother));
    apply exec_listeners.
Qed.

Lemma listeners_spawned_init : listeners_spawned init.
Proof. intros p n h []. Qed.

Lemma exec_exit_and_error_payloads_witness :
  listeners_spawned init /\
  (forall code,
     emitted (snd (deliver_child 0 (CExit code)
       (snd (execCommandAndSendToCOS "echo" ["hello"] VUndef VUndef None init)))) =
     emitted (snd (execCommandAndSendToCOS "echo" ["hello"] VUndef VUndef None init))
       ++ [("command_exit", code)]) /\
  (forall err,
     emitted (snd (deliver_child 0 (CError err)
       (snd (execCommandAndSendToCOS "echo" ["hello"] VUndef VUndef None init)))) =
     emitted (snd (execCommandAndSendToCOS "echo" ["hello"] VUndef VUndef None init))
       ++ [("command_init_error", err)]).
Proof.
  split; [exact listeners_spawned_init|].
  exact (exec_exit_and_error_payloads "echo" ["hello"] VUndef VUndef None init
           listeners_spawned_init).
Defined.
(** C8: the [upload_error] signal carries the client's error value itself
    and the [upload_finish] signal carries the client's result value
    itself; the callback modifies no object on the heap. *)
Theorem upload_callback_payload err data s :
  emitted (snd (upload_callback err data s)) =
    emitted s ++ [if loose_neq_null err then ("upload_error", err)
                  else ("upload_finish", data)] /\
  heap (snd (upload_callback err data s)) = heap s.
Proof. unfold upload_callback. destruct (loose_neq_null err); split; reflexivity. Qed.





(** C10: omitting [compressed] behaves as [compressed = false] for both
    operations: no gzip transform is created and the raw stream (for the
    run-and-upload operation, the child's stdout) is the Body. *)
Theorem omitted_compress_is_false strm command args b t s :
  uploadStreamToCOS strm b t None s = uploadStreamToCOS strm b t (Some (VBool false)) s /\
  execCommandAndSendToCOS command args b t None s =
    execCommandAndSendToCOS command args b t (Some (VBool false)) s /\
  (let s' := snd (uploadStreamToCOS strm b t None s) in
   next_gzip s' = next_gzip s /\ pipes s' = pipes s /\
   exists lp lo, uploads s' = uploads s ++ [(VObj lp, lo)] /\
                 heap s' !! lp ≫= (.!! "Body") = Some (VStream strm)) /\
  (let s' := snd (execCommandAndSendToCOS command args b t None s) in
   next_gzip s' = next_gzip s /\ pipes s' = pipes s /\
   exists lp lo, uploads s' = uploads s ++ [(VObj lp, lo)] /\
                 heap s' !! lp ≫= (.!! "Body") = Some (VStream (SStdout (next_pid s)))).
Proof.
  split; [reflexivity|split; [reflexivity|split]]; cbv zeta.
  - destruct (upload_raw_spec strm b t None s eq_refl) as (lp & lo & h & -> & HB & _).
    cbn. split; [reflexivity|split; [reflexivity|]]. exists lp, (VObj lo). auto.
  - destruct (exec_spec command args b t None s)
      as [[_ (lp & lo & h & -> & HB & _)]|[Hc _]]; [|discriminate].
    cbn. split; [reflexivity|split; [reflexivity|]]. exists lp, (VObj lo). auto.
Qed.

(** * Further properties of [uploadStreamToCOS] and [execCommandAndSendToCOS] *)

(** The end of [uploadStreamToCOS], with the resulting heap written out:
    the Body is stored into the params object, then the two transfer
    fields into the options object (possibly the same object). *)
Lemma upload_tail_heap b t rs s :
  copied rs ->
  exists lp lo,
    let h1 := <[lp := <["Body" := rs]> (default ∅ (heap s !! lp))]> (heap s) in
    (params ← extend_false b [("Body", rs)];
     options ← extend_false t [("partSize", VNum ten_MiB); ("queueSize", VNum 10)];
     s3_upload params options : M unit) s =
    (tt, mkState
           (<[lo := <["queueSize" := VNum 10]> (<["partSize" := VNum ten_MiB]>
                      (default ∅ (h1 !! lo)))]> h1)
           (next_pid s) (next_gzip s) (procs s) (listeners s) (pipes s)
           (uploads s ++ [(VObj lp, VObj lo)]) (emitted s)
           (trace s ++ [AUpload (VObj lp) (VObj lo)])) /\
    (forall l, b = VObj l -> lp = l) /\
    ((forall l, b <> VObj l) -> heap s !! lp = None) /\
    (forall l, t = VObj l -> lo = l) /\
    ((forall l, t <> VObj l) -> h1 !! lo = None).
Proof.
  intros Hrs.
  destruct (extend_false_spec b [("Body", rs)] s) as (lp & E1 & Hb1 & Hb2);
    [by constructor; [|constructor]|done|].
  set (s1 := set_heap (<[lp := copy_props (default ∅ (heap s !! lp)) [("Body", rs)]]>
                         (heap s)) s) in E1.
  destruct (extend_false_spec t transfer_defaults s1) as (lo & E2 & Ht1 & Ht2);
    [apply transfer_defaults_copied|done|].
  exists lp, lo. cbv zeta. split; [|split; [exact Hb1|split; [exact Hb2|split; [exact Ht1|]]]].
  - unfold mbind, M_bind. rewrite E1. cbv beta iota zeta.
    unfold transfer_defaults in E2. rewrite E2. reflexivity.
  - exact Ht2.
Qed.

(** [uploadStreamToCOS] is its gzip stage followed by the end above; the
    gzip stage touches neither the heap nor the signals, processes,
    listeners or requests. *)
Lemma upload_decompose strm b t c s :
  exists rs s0,
    copied rs /\
    heap s0 = heap s /\ next_pid s0 = next_pid s /\ procs s0 = procs s /\
    listeners s0 = listeners s /\ uploads s0 = uploads s /\ emitted s0 = emitted s /\
    ((truthy (default_param c (VBool false)) = false /\
      rs = VStream strm /\ s0 = s) \/
     (truthy (default_param c (VBool false)) = true /\
      rs = VStream (SGzip (next_gzip s)) /\ s0 = after_gzip strm s)) /\
    uploadStreamToCOS strm b t c s =
    (params ← extend_false b [("Body", rs)];
     options ← extend_false t [("partSize", VNum ten_MiB); ("queueSize", VNum 10)];
     s3_upload params options : M unit) s0.
Proof.
  destruct (truthy (default_param c (VBool false))) eqn:Hc.
  - exists (VStream (SGzip (next_gzip s))), (after_gzip strm s).
    split; [apply copied_stream|].
    do 6 (split; [reflexivity|]). split; [right; auto|].
    unfold uploadStreamToCOS. rewrite Hc. unfold after_gzip.
    unfold mbind at 1 2 3 4 5, M_bind at 1 2 3 4 5. unfold mret, M_ret.
    unfold createGzip, pipe. cbv beta iota zeta.
    cbn [heap next_pid next_gzip procs listeners pipes uploads emitted trace].
    rewrite <- app_assoc. reflexivity.
  - exists (VStream strm), s. split; [apply copied_stream|].
    do 6 (split; [reflexivity|]). split; [left; auto|].
    unfold uploadStreamToCOS. rewrite Hc.
    unfold mbind at 1 2, M_bind at 1 2, mret, M_ret. reflexivity.
Qed.

Lemma truthy_default_some v :
  truthy (default_param (Some v) (VBool false)) = truthy v.
Proof. destruct v; reflexivity. Qed.

(** Runs [upload_decompose] and [upload_tail_heap] on a goal about
    [snd (uploadStreamToCOS strm b t c s)]. *)
Ltac open_upload strm b t c s :=
  let rs := fresh "rs" in let s0 := fresh "s0" in
  let Hrs := fresh "Hrs" in let Hcase := fresh "Hcase" in
  let E := fresh "E" in let E2 := fresh "E2" in
  let lp := fresh "lp" in let lo := fresh "lo" in
  destruct (upload_decompose strm b t c s)
    as (rs & s0 & Hrs & ? & ? & ? & ? & ? & ? & Hcase & E);
  destruct (upload_tail_heap b t rs s0 Hrs)
    as (lp & lo & E2 & ? & ? & ? & ?);
  cbv zeta in *; rewrite E, E2; cbn [snd heap next_pid next_gzip procs listeners
    pipes uploads emitted trace].

(** [compressed] is tested for JavaScript truthiness: any truthy value
    (such as the string "false" or 1) makes a gzip transform piped from
    the stream the Body; any falsy one (0, "", null, undefined, false)
    leaves the raw stream as the Body and creates no transform. *)
Theorem upload_compresses_iff_truthy strm b t v s :
  let s' := snd (uploadStreamToCOS strm b t (Some v) s) in
  next_gzip s' = (if truthy v then S (next_gzip s) else next_gzip s) /\
  pipes s' = (if truthy v then pipes s ++ [(strm, SGzip (next_gzip s))] else pipes s) /\
  exists lp lo,
    uploads s' = uploads s ++ [(VObj lp, lo)] /\
    heap s' !! lp ≫= (.!! "Body") =
      Some (VStream (if truthy v then SGzip (next_gzip s) else strm)).
Proof.
  cbv zeta. rewrite <- truthy_default_some.
  destruct (truthy (default_param (Some v) (VBool false))) eqn:Hc.
  - destruct (upload_gzip_spec strm b t (Some v) s Hc)
      as (lp & lo & h & -> & HB & _). cbn.
    split; [reflexivity|split; [reflexivity|]]. exists lp, (VObj lo). auto.
  - destruct (upload_raw_spec strm b t (Some v) s Hc)
      as (lp & lo & h & -> & HB & _). cbn.
    split; [reflexivity|split; [reflexivity|]]. exists lp, (VObj lo). auto.
Qed.

(** When the caller passes objects, the client receives those very
    objects (no copy) as the upload params and the transfer options. *)
Theorem upload_forwards_caller_objects strm lb lt c s :
  uploads (snd (uploadStreamToCOS strm (VObj lb) (VObj lt) c s)) =
  uploads s ++ [(VObj lb, VObj lt)].
Proof.
  open_upload strm (VObj lb) (VObj lt) c s.
  match goal with
  | Hb : forall l, VObj lb = VObj l -> _ = l, Ht : forall l, VObj lt = VObj l -> _ = l |- _ =>
      rewrite (Hb lb eq_refl), (Ht lt eq_refl)
  end.
  congruence.
Qed.

(** The [readStream] of [uploadStreamToCOS]: the fresh gzip transform when
    [compressed] is truthy, the stream itself otherwise. *)
Definition readStream_of (strm : stream) (c : option value) (s : state) : stream :=
  if truthy (default_param c (VBool false)) then SGzip (next_gzip s) else strm.

Lemma upload_decompose' strm b t c s :
  exists s0,
    heap s0 = heap s /\ next_pid s0 = next_pid s /\ procs s0 = procs s /\
    listeners s0 = listeners s /\ uploads s0 = uploads s /\ emitted s0 = emitted s /\
    uploadStreamToCOS strm b t c s =
    (params ← extend_false b [("Body", VStream (readStream_of strm c s))];
     options ← extend_false t [("partSize", VNum ten_MiB); ("queueSize", VNum 10)];
     s3_upload params options : M unit) s0.
Proof.
  destruct (upload_decompose strm b t c s)
    as (rs & s0 & _ & H1 & H2 & H3 & H4 & H5 & H6 & Hcase & E).
  exists s0. do 6 (split; [assumption|]).
  unfold readStream_of.
  destruct Hcase as [(Hc & -> & _)|(Hc & -> & _)]; rewrite Hc; exact E.
Qed.

(** With two distinct caller objects, the upload writes the Body into
    [bucket_options] and the two transfer fields into [transfer_options],
    and leaves every other field of both as it was. *)
Theorem upload_caller_object_contents strm lb lt c s :
  lb <> lt ->
  let s' := snd (uploadStreamToCOS strm (VObj lb) (VObj lt) c s) in
  heap s' !! lb =
    Some (<["Body" := VStream (readStream_of strm c s)]> (default ∅ (heap s !! lb))) /\
  heap s' !! lt =
    Some (<["queueSize" := VNum 10]> (<["partSize" := VNum ten_MiB]>
            (default ∅ (heap s !! lt)))).
Proof.
  intros Hne. cbv zeta.
  destruct (upload_decompose' strm (VObj lb) (VObj lt) c s)
    as (s0 & Hh & _ & _ & _ & _ & _ & E).
  destruct (upload_tail_heap (VObj lb) (VObj lt) (VStream (readStream_of strm c s)) s0
              (copied_stream _)) as (lp & lo & E2 & Hb & _ & Ht & _).
  cbv zeta in E2. rewrite E, E2. cbn [snd heap].
  rewrite <- (Hb lb eq_refl), <- (Ht lt eq_refl) in *. rewrite Hh.
  split; by simplify_map_eq.
Qed.

Lemma upload_caller_object_contents_witness :
  (0 <> 1)%nat /\
  let s' := snd (uploadStreamToCOS (SOther 0) (VObj 0) (VObj 1) None init) in
  heap s' !! 0 =
    Some (<["Body" := VStream (readStream_of (SOther 0) None init)]> (default ∅ (heap init !! 0))) /\
  heap s' !! 1 =
    Some (<["queueSize" := VNum 10]> (<["partSize" := VNum ten_MiB]>
            (default ∅ (heap init !! 1)))).
Proof.
  split; [lia|].
  exact (upload_caller_object_contents (SOther 0) 0 1 None init ltac:(lia)).
Defined.

(** When [bucket_options] and [transfer_options] are the same object, that
    one object receives the Body and both transfer fields and is handed to
    the client both as the params and as the options. *)
Theorem upload_same_object_for_both strm l c s :
  let s' := snd (uploadStreamToCOS strm (VObj l) (VObj l) c s) in
  uploads s' = uploads s ++ [(VObj l, VObj l)] /\
  heap s' !! l =
    Some (<["queueSize" := VNum 10]> (<["partSize" := VNum ten_MiB]>
            (<["Body" := VStream (readStream_of strm c s)]> (default ∅ (heap s !! l))))).
Proof.
  cbv zeta.
  destruct (upload_decompose' strm (VObj l) (VObj l) c s)
    as (s0 & Hh & _ & _ & _ & Hu & _ & E).
  destruct (upload_tail_heap (VObj l) (VObj l) (VStream (readStream_of strm c s)) s0
              (copied_stream _)) as (lp & lo & E2 & Hb & _ & Ht & _).
  cbv zeta in E2. rewrite E, E2. cbn [snd heap uploads].
  pose proof (Hb l eq_refl) as ->. pose proof (Ht l eq_refl) as ->. rewrite Hh, Hu.
  split; [reflexivity|by simplify_map_eq].
Qed.

(** An upload modifies no object other than the two it is given. *)
Theorem upload_frame_other_objects strm b t c s l o :
  b <> VObj l -> t <> VObj l -> heap s !! l = Some o ->
  heap (snd (uploadStreamToCOS strm b t c s)) !! l = Some o.
Proof.
  intros Hbl Htl Hl.
  destruct (upload_decompose' strm b t c s)
    as (s0 & Hh & _ & _ & _ & _ & _ & E).
  destruct (upload_tail_heap b t (VStream (readStream_of strm c s)) s0
              (copied_stream _)) as (lp & lo & E2 & Hb1 & Hb2 & Ht1 & Ht2).
  cbv zeta in E2 |- *. rewrite E, E2. cbn [snd heap]. rewrite Hh in *.
  assert (Hlp : lp <> l).
  { destruct b; try (intros ->; rewrite (Hb2 ltac:(intros ? ?; discriminate)) in Hl;
                     discriminate).
    pose proof (Hb1 _ eq_refl) as ->. intros ->. by apply Hbl. }
  assert (Hlo : lo <> l).
  { destruct t; try (intros ->; specialize (Ht2 ltac:(intros ? ?; discriminate));
                     rewrite lookup_insert_ne in Ht2 by congruence; congruence).
    pose proof (Ht1 _ eq_refl) as ->. intros ->. by apply Htl. }
  by simplify_map_eq.
Qed.

Lemma upload_frame_other_objects_witness :
  VUndef <> VObj 0 /\ VObj 1 <> VObj 0 /\
  heap (snd (new_obj [("Key", VStr "k")] init)) !! 0 = Some {["Key" := VStr "k"]} /\
  heap (snd (uploadStreamToCOS (SOther 0) VUndef (VObj 1) None
               (snd (new_obj [("Key", VStr "k")] init)))) !! 0 =
    Some {["Key" := VStr "k"]}.
Proof.
  assert (H : heap (snd (new_obj [("Key", VStr "k")] init)) !! 0 = Some {["Key" := VStr "k"]})
    by reflexivity.
  split; [discriminate|split; [discriminate|split; [exact H|]]].
  exact (upload_frame_other_objects (SOther 0) VUndef (VObj 1) None _ 0 _
           ltac:(discriminate) ltac:(discriminate) H).
Defined.

(** [uploadStreamToCOS] emits no signal, spawns no process and registers
    no listener by itself: it only hands exactly one request to the
    client; its signals come later, from the completion callback. *)
Theorem upload_no_signal_no_process strm b t c s :
  let s' := snd (uploadStreamToCOS strm b t c s) in
  emitted s' = emitted s /\ procs s' = procs s /\ listeners s' = listeners s /\
  next_pid s' = next_pid s /\ exists p o, uploads s' = uploads s ++ [(p, o)].
Proof.
  cbv zeta.
  destruct (upload_decompose' strm b t c s)
    as (s0 & _ & Hn & Hp & Hl & Hu & He & E).
  destruct (upload_tail_heap b t (VStream (readStream_of strm c s)) s0
              (copied_stream _)) as (lp & lo & E2 & _).
  cbv zeta in E2. rewrite E, E2. cbn [snd emitted procs listeners next_pid uploads].
  rewrite Hn, Hp, Hl, Hu, He. eauto 10.
Qed.

(** When [bucket_options] is a primitive (omitted, null, a number, ...)
    and [transfer_options] is absent or an existing object, the params
    handed to the client are a new object holding only the Body. *)
Theorem upload_fresh_params_for_non_object strm b t c s :
  (forall l, b <> VObj l) -> (forall st, b <> VStream st) ->
  (forall l, t = VObj l -> is_Some (heap s !! l)) ->
  let s' := snd (uploadStreamToCOS strm b t c s) in
  exists lp o,
    uploads s' = uploads s ++ [(VObj lp, o)] /\
    heap s !! lp = None /\
    heap s' !! lp = Some {["Body" := VStream (readStream_of strm c s)]}.
Proof.
  intros Hb _ Ht. cbv zeta.
  destruct (upload_decompose' strm b t c s)
    as (s0 & Hh & _ & _ & _ & Hu & _ & E).
  destruct (upload_tail_heap b t (VStream (readStream_of strm c s)) s0
              (copied_stream _)) as (lp & lo & E2 & _ & Hb2 & Ht1 & Ht2).
  cbv zeta in E2. rewrite E, E2. cbn [snd heap uploads]. rewrite Hh, Hu in *.
  specialize (Hb2 Hb).
  assert (Hlo : lo <> lp).
  { destruct t; try (intros ->; specialize (Ht2 ltac:(intros ? ?; discriminate));
                     by rewrite lookup_insert_eq in Ht2).
    pose proof (Ht1 _ eq_refl) as ->. intros ->. destruct (Ht _ eq_refl) as [? Hs].
    congruence. }
  exists lp, (VObj lo). split; [reflexivity|split; [exact Hb2|]].
  rewrite Hb2. by simplify_map_eq.
Qed.

Lemma upload_fresh_params_for_non_object_witness :
  (forall l, VUndef <> VObj l) /\ (forall st, VUndef <> VStream st) /\
  (forall l, VUndef = VObj l -> is_Some (heap init !! l)) /\
  let s' := snd (uploadStreamToCOS (SOther 0) VUndef VUndef None init) in
  exists lp o,
    uploads s' = uploads init ++ [(VObj lp, o)] /\
    heap init !! lp = None /\
    heap s' !! lp = Some {["Body" := VStream (readStream_of (SOther 0) None init)]}.
Proof.
  assert (H1 : forall l, VUndef <> VObj l) by (intros l; discriminate).
  assert (H2 : forall l, VUndef = VObj l -> is_Some (heap init !! l))
    by (intros l E; discriminate).
  assert (H3 : forall st, VUndef <> VStream st) by (intros st; discriminate).
  split; [exact H1|split; [exact H3|split; [exact H2|]]].
  exact (upload_fresh_params_for_non_object (SOther 0) VUndef VUndef None init H1 H3 H2).
Defined.

Lemma upload_body_and_request strm lb t c s :
  let s' := snd (uploadStreamToCOS strm (VObj lb) t c s) in
  exists o, uploads s' = uploads s ++ [(VObj lb, o)] /\
    heap s' !! lb ≫= (.!! "Body") = Some (VStream (readStream_of strm c s)).
Proof.
  cbv zeta.
  destruct (upload_decompose' strm (VObj lb) t c s)
    as (s0 & _ & _ & _ & _ & Hu & _ & E).
  destruct (upload_tail_heap (VObj lb) t (VStream (readStream_of strm c s)) s0
              (copied_stream _)) as (lp & lo & E2 & Hb1 & _).
  cbv zeta in E2. rewrite E, E2. cbn [snd heap uploads].
  pose proof (Hb1 lb eq_refl) as ->. rewrite Hu. exists (VObj lo). split; [reflexivity|].
  destruct (decide (lo = lb)) as [->|Hne]; by simplify_map_eq.
Qed.

(** Two uploads with the same [bucket_options] object hand the client the
    same params object twice; after the second call its Body is the
    second call's stream. *)
Theorem upload_twice_shares_params strm1 strm2 l t1 t2 c1 c2 s :
  let s1 := snd (uploadStreamToCOS strm1 (VObj l) t1 c1 s) in
  let s2 := snd (uploadStreamToCOS strm2 (VObj l) t2 c2 s1) in
  exists o1 o2,
    uploads s2 = uploads s ++ [(VObj l, o1); (VObj l, o2)] /\
    heap s2 !! l ≫= (.!! "Body") = Some (VStream (readStream_of strm2 c2 s1)).
Proof.
  cbv zeta.
  destruct (upload_body_and_request strm1 l t1 c1 s) as (o1 & U1 & _).
  destruct (upload_body_and_request strm2 l t2 c2 (snd (uploadStreamToCOS strm1 (VObj l) t1 c1 s)))
    as (o2 & U2 & B2).
  exists o1, o2. split; [|exact B2].
  rewrite U2, U1, <- app_assoc. reflexivity.
Qed.

Lemma deliver_child_forward_mid pid e s L1 L2 :
  listeners s = L1 ++ [(pid, "exit", HForwardExit); (pid, "error", HForwardError)] ++ L2 ->
  (forall p n h, In (p, n, h) L1 -> p <> pid) ->
  (forall p n h, In (p, n, h) L2 -> p <> pid) ->
  emitted (snd (deliver_child pid e s)) = emitted s ++ [forward e] /\
  listeners (snd (deliver_child pid e s)) = listeners s.
Proof.
  intros HL H1 H2.
  assert (Hrun : forall s1, listeners s1 = listeners s ->
            emitted (snd (run_listeners (listeners s1) pid e s1)) = emitted s1 ++ [forward e] /\
            listeners (snd (run_listeners (listeners s1) pid e s1)) = listeners s1).
  { intros s1 E. rewrite E, HL, !run_listeners_app, (run_listeners_other L1) by exact H1.
    cbn [snd]. rewrite (run_listeners_other L2) by exact H2.
    cbn [snd run_listeners]. unfold mbind, M_bind, mret, M_ret.
    rewrite !decide_True by reflexivity.
    destruct e; cbn; split; [reflexivity| |reflexivity|]; by rewrite E. }
  unfold deliver_child. destruct e;
    match goal with
    | |- context [run_listeners _ _ _ ?x] => destruct (Hrun x eq_refl) as [Ha Hb]
    end; (split; [exact Ha|exact Hb]).
Qed.

Lemma deliver_all_forward_mid pid es s L1 L2 :
  listeners s = L1 ++ [(pid, "exit", HForwardExit); (pid, "error", HForwardError)] ++ L2 ->
  (forall p n h, In (p, n, h) L1 -> p <> pid) ->
  (forall p n h, In (p, n, h) L2 -> p <> pid) ->
  emitted (snd (deliver_all pid es s)) = emitted s ++ map forward es.
Proof.
  revert s. induction es as [|e rest IH]; intros s HL H1 H2.
  - cbn. by rewrite app_nil_r.
  - cbn [deliver_all]. unfold mbind, M_bind.
    destruct (deliver_child_forward_mid pid e s L1 L2 HL H1 H2) as [Hem Hls].
    destruct (deliver_child pid e s) as [[] s1] eqn:E. cbn [snd] in Hem, Hls.
    rewrite (IH s1); [|congruence|exact H1|exact H2].
    rewrite Hem, <- app_assoc. reflexivity.
Qed.

Lemma exec_frame command args b t c s :
  let s' := snd (execCommandAndSendToCOS command args b t c s) in
  next_pid s' = S (next_pid s) /\ emitted s' = emitted s.
Proof.
  destruct (exec_spec command args b t c s)
    as [[_ (lp & lo & h & -> & _)]|[_ (lp & lo & h & -> & _)]]; split; reflexivity.
Qed.

(** Two runs on one redirector: each child's ['exit']/['error'] events are
    reported once each, in order, by that child's own listeners only; the
    other run's listeners add nothing. *)
Theorem exec_twice_events_per_child cmd1 args1 b1 t1 c1 cmd2 args2 b2 t2 c2 s es :
  listeners_spawned s ->
  let s2 := snd (execCommandAndSendToCOS cmd2 args2 b2 t2 c2
                   (snd (execCommandAndSendToCOS cmd1 args1 b1 t1 c1 s))) in
  emitted (snd (deliver_all (next_pid s) es s2)) = emitted s ++ map forward es /\
  emitted (snd (deliver_all (S (next_pid s)) es s2)) = emitted s ++ map forward es.
Proof.
  intros Hsp. cbv zeta.
  set (s1 := snd (execCommandAndSendToCOS cmd1 args1 b1 t1 c1 s)).
  destruct (exec_frame cmd1 args1 b1 t1 c1 s) as [Hn1 He1]. fold s1 in Hn1, He1.
  destruct (exec_frame cmd2 args2 b2 t2 c2 s1) as [_ He2].
  pose proof (exec_listeners cmd2 args2 b2 t2 c2 s1) as HL2.
  pose proof (exec_listeners cmd1 args1 b1 t1 c1 s) as HL1. fold s1 in HL1.
  rewrite HL1, Hn1 in HL2.
  split.
  - rewrite <- app_assoc in HL2.
    rewrite (deliver_all_forward_mid (next_pid s) es _ (listeners s)
               [(S (next_pid s), "exit", HForwardExit); (S (next_pid s), "error", HForwardError)]
               HL2).
    + by rewrite He2, He1.
    + intros p n h Hin. specialize (Hsp p n h Hin). lia.
    + intros p n h [E|[E|[]]]; injection E; intros; subst; lia.
  - rewrite (deliver_all_forward (S (next_pid s)) es _ _ HL2).
    + by rewrite He2, He1.
    + intros p n h Hin. apply in_app_or in Hin as [Hin|[E|[E|[]]]].
      * specialize (Hsp p n h Hin). lia.
      * injection E; intros; subst; lia.
      * injection E; intros; subst; lia.
Qed.

Lemma exec_twice_events_per_child_witness :
  listeners_spawned init /\
  let s2 := snd (execCommandAndSendToCOS "echo" ["b"] VUndef VUndef None
                   (snd (execCommandAndSendToCOS "echo" ["a"] VUndef VUndef None init))) in
  emitted (snd (deliver_all 0 [CExit (VNum 0)] s2)) =
    emitted init ++ map forward [CExit (VNum 0)] /\
  emitted (snd (deliver_all 1 [CExit (VNum 0)] s2)) =
    emitted init ++ map forward [CExit (VNum 0)].
Proof.
  split; [exact listeners_spawned_init|].
  exact (exec_twice_events_per_child "echo" ["a"] VUndef VUndef None "echo" ["b"]
           VUndef VUndef None init [CExit (VNum 0)] listeners_spawned_init).
Defined.
